(** * read_docs.py: text extraction from a .docx and an .xlsx file

    A shallow embedding of [src/read_docs.py].  The script has two
    extractors, [read_docx] and [read_xlsx], and a driver that runs them one
    after the other on a freshly truncated output file.

    - A Python [str] is a list of Unicode code points.
    - The libraries the script calls ([docx.Document], [zipfile.ZipFile],
      [ZipFile.read], [ET.fromstring]) are an oracle, the record [World]:
      every call either raises an exception or returns a value.
    - The script's effects are kept in one chronological trace: every
      [out_file.write] and every library call appends an event.  The text of
      the output file is the concatenation of the written chunks.
    - Control flow is a state-and-exception monad over that trace; what was
      written before an exception stays written, as in Python.
    - Writing to the open output file is taken to succeed.  Opening it may
      fail: [main] is a run whose output file opened, [run_script] is the
      whole script with the answer of [open].  The exceptions raised inside
      the extractors are those of the four library calls, all of them
      instances of [Exception]. *)

From Stdlib Require Import List NArith Bool String Ascii Lia.
Import ListNotations.

Local Open Scope N_scope.
Local Open Scope list_scope.

(** ** Python strings *)

Module Py.

(** A code point. *)
Definition char := N.

(** A Python [str]. *)
Definition str := list char.

(** A Python [bytes] object. *)
Definition bytes := list Byte.byte.

(** A literal of the source, written as a Rocq string (ASCII only). *)
Definition lit (s : String.string) : str :=
  List.map N_of_ascii (list_ascii_of_string s).
Arguments lit s%_string.

(** Truth value of a [str]: the empty string is falsy. *)
Definition truthy (s : str) : bool :=
  match s with
  | [] => false
  | _ :: _ => true
  end.

(** [str.isspace] on one code point, which is what [str.strip()] with no
    argument removes (CPython's [_Py_ascii_whitespace] below 128 and
    [_PyUnicode_IsWhitespace] above). *)
Definition isspace (c : char) : bool :=
  ((9 <=? c) && (c <=? 13))
  || ((28 <=? c) && (c <=? 32))
  || (c =? 133) || (c =? 160) || (c =? 5760)
  || ((8192 <=? c) && (c <=? 8202))
  || (c =? 8232) || (c =? 8233) || (c =? 8239) || (c =? 8287)
  || (c =? 12288).

(** [s.lstrip()]. *)
Fixpoint lstrip (s : str) : str :=
  match s with
  | [] => []
  | c :: s' => if isspace c then lstrip s' else s
  end.

(** [s.rstrip()]. *)
Definition rstrip (s : str) : str := rev (lstrip (rev s)).

(** [s.strip()]. *)
Definition strip (s : str) : str := rstrip (lstrip s).

(** [s.replace(old, new)] for a pattern [old] of length one. *)
Definition replace (old : char) (new : str) (s : str) : str :=
  flat_map (fun c => if c =? old then new else [c]) s.

(** [sep.join(l)]. *)
Fixpoint join (sep : str) (l : list str) : str :=
  match l with
  | [] => []
  | [s] => s
  | s :: l' => s ++ sep ++ join sep l'
  end.

(** Equality of two strings. *)
Fixpoint eqb (s t : str) : bool :=
  match s, t with
  | [], [] => true
  | c :: s', d :: t' => (c =? d) && eqb s' t'
  | _, _ => false
  end.

(** [s.startswith(p)]. *)
Fixpoint startswith (s p : str) : bool :=
  match p, s with
  | [], _ => true
  | d :: p', c :: s' => (c =? d) && startswith s' p'
  | _ :: _, [] => false
  end.

(** [s.endswith(suffix)]. *)
Definition endswith (s suffix : str) : bool :=
  startswith (rev s) (rev suffix).

(** [any(l)] on a list of strings. *)
Definition any (l : list str) : bool := existsb truthy l.

(** The line-feed character ["\n"]. *)
Definition LF : char := 10.

(** The space character. *)
Definition SP : char := 32.

End Py.

(** ** The documents the libraries hand to the script *)

(** An exception object; [exn_str] is what [str(e)] and an f-string show. *)
Record exn : Type := Exn { exn_str : Py.str }.

(** The result of a library call. *)
Definition result (A : Type) : Type := (exn + A)%type.

(** python-docx: a paragraph, a table cell, a row and a table, each reduced
    to the attributes the script reads. *)
Record Paragraph : Type := { p_text : Py.str }.
Record Cell : Type := { cell_text : Py.str }.
Record Row : Type := { cells : list Cell }.
Record Table : Type := { rows : list Row }.
Record Document : Type := { paragraphs : list Paragraph; tables : list Table }.

(** ElementTree: an element with its tag, its [.text] (the text before the
    first child, or [None]), its [.tail] (the text after its end tag, or
    [None]) and its children. *)
Unset Elimination Schemes.
Inductive Element : Type :=
  mkElement (tag : Py.str) (text : option Py.str) (tail : option Py.str)
            (children : list Element).
Set Elimination Schemes.

Definition elem_tag (e : Element) : Py.str :=
  match e with mkElement t _ _ _ => t end.
Definition elem_text (e : Element) : option Py.str :=
  match e with mkElement _ t _ _ => t end.
Definition elem_tail (e : Element) : option Py.str :=
  match e with mkElement _ _ t _ => t end.
Definition elem_children (e : Element) : list Element :=
  match e with mkElement _ _ _ cs => cs end.

(** [Element.iter()]: the element itself, then the elements of each child's
    subtree, in document order. *)
Fixpoint iter (e : Element) : list Element :=
  match e with
  | mkElement _ _ _ cs => e :: flat_map iter cs
  end.

(** Induction on an element, with the property known of every child. *)
Section ElementInduction.

Variable P : Element -> Prop.
Hypothesis Hnode :
  forall tg tx tl cs, Forall P cs -> P (mkElement tg tx tl cs).

Fixpoint Element_ind (e : Element) : P e :=
  match e with
  | mkElement tg tx tl cs =>
      Hnode tg tx tl cs
        ((fix children_ok (l : list Element) : Forall P l :=
            match l with
            | [] => Forall_nil P
            | c :: l' => Forall_cons c (Element_ind c) (children_ok l')
            end) cs)
  end.

End ElementInduction.

(** An open [zipfile.ZipFile]: the names it lists, in archive order, and what
    [read] gives for a name. *)
Record ZipFile : Type := {
  namelist : list Py.str;
  read : Py.str -> result Py.bytes
}.

(** What the libraries answer. *)
Record World : Type := {
  docx_Document : Py.str -> result Document;
  zipfile_ZipFile : Py.str -> result ZipFile;
  ET_fromstring : Py.bytes -> result Element
}.

(** ** Effects: one trace, and exceptions *)

(** What the script does to the outside, in the order it does it. *)
Inductive event : Type :=
| Write (chunk : Py.str)        (* out_file.write(chunk) *)
| DocxOpen (path : Py.str)      (* docx.Document(path) *)
| ZipOpen (path : Py.str)       (* zipfile.ZipFile(path, 'r') *)
| ZipRead (name : Py.str)       (* z.read(name) *)
| XmlParse (data : Py.bytes).   (* ET.fromstring(data) *)

Definition trace := list event.

(** A statement block: it extends the trace and either raises or returns. *)
Definition M (A : Type) : Type := trace -> trace * result A.

Definition ret {A : Type} (a : A) : M A := fun t => (t, inr a).

Definition bind {A B : Type} (m : M A) (k : A -> M B) : M B :=
  fun t =>
    match m t with
    | (t', inl e) => (t', inl e)
    | (t', inr a) => k a t'
    end.

(** [try: body / except Exception as e: handler e]. *)
Definition try_except {A : Type} (body : M A) (handler : exn -> M A) : M A :=
  fun t =>
    match body t with
    | (t', inl e) => handler e t'
    | (t', inr a) => (t', inr a)
    end.

(** [out_file.write(chunk)]. *)
Definition write (chunk : Py.str) : M unit :=
  fun t => (t ++ [Write chunk], inr tt).

(** A library call: it is recorded, and its answer is the oracle's. *)
Definition call {A : Type} (ev : event) (answer : result A) : M A :=
  fun t => (t ++ [ev], answer).

Notation "x <- m ;; k" := (bind m (fun x => k))
  (at level 61, m at next level, right associativity).
Notation "m ;; k" := (bind m (fun _ => k))
  (at level 61, right associativity).

(** [for x in l: body x]; an exception in the body leaves the loop. *)
Fixpoint for_each {A : Type} (l : list A) (body : A -> M unit) : M unit :=
  match l with
  | [] => ret tt
  | x :: l' => body x ;; for_each l' body
  end.

(** The chunks written, in order. *)
Fixpoint written (t : trace) : list Py.str :=
  match t with
  | [] => []
  | Write chunk :: t' => chunk :: written t'
  | _ :: t' => written t'
  end.

(** The text of the output file once it is closed. *)
Definition file_text (t : trace) : Py.str := List.concat (written t).

(** ** The script *)

Import Py.

(** The body of [for p in doc.paragraphs]. *)
Definition paragraph_body (p : Paragraph) : M unit :=
  if truthy (strip (p_text p)) then write (p_text p ++ [LF]) else ret tt.

(** What [row_data.append] is given for one cell. *)
Definition cell_entry (cell : Cell) : Py.str :=
  strip (replace LF [SP] (cell_text cell)).

(** [row_data] after the loop over [row.cells]. *)
Definition row_data (row : Row) : list Py.str :=
  fold_left (fun acc cell => acc ++ [cell_entry cell]) (cells row) [].

(** The body of [for row in table.rows]. *)
Definition row_body (row : Row) : M unit :=
  let data := row_data row in
  if any data then write (join (lit " | ") data ++ [LF]) else ret tt.

Definition docx_header (path : Py.str) : Py.str :=
  lit "--- DOCX: " ++ path ++ lit " ---" ++ [LF].

Definition read_docx (w : World) (path : Py.str) : M unit :=
  write (docx_header path) ;;
  doc <- call (DocxOpen path) (docx_Document w path) ;;
  for_each (paragraphs doc) paragraph_body ;;
  for_each (tables doc) (fun table => for_each (rows table) row_body).

(** [elem.text and elem.text.strip()] as a condition. *)
Definition text_test (elem : Element) : bool :=
  match elem_text elem with
  | None => false
  | Some t => truthy t && truthy (strip t)
  end.

(** [elem.text.strip()]; only evaluated where [text_test] holds. *)
Definition text_strip (elem : Element) : Py.str :=
  match elem_text elem with
  | None => []
  | Some t => strip t
  end.

(** The body of [for elem in root.iter()]. *)
Definition elem_body (elem : Element) : M unit :=
  if text_test elem then write (text_strip elem ++ [LF]) else ret tt.

(** The inner [try] block with its [except Exception: pass]. *)
Definition entry_try (w : World) (z : ZipFile) (filename : Py.str) : M unit :=
  try_except
    (xml_content <- call (ZipRead filename) (read z filename) ;;
     root <- call (XmlParse xml_content) (ET_fromstring w xml_content) ;;
     for_each (iter root) elem_body)
    (fun _ => ret tt).

(** The body of [for filename in z.namelist()]. *)
Definition entry_body (w : World) (z : ZipFile) (filename : Py.str) : M unit :=
  if endswith filename (lit ".xml") then entry_try w z filename else ret tt.

Definition xlsx_header (path : Py.str) : Py.str :=
  [LF] ++ lit "--- XLSX: " ++ path ++ lit " ---" ++ [LF].

Definition xlsx_failure (e : exn) : Py.str :=
  lit "Failed to read xlsx: " ++ exn_str e ++ [LF].

Definition read_xlsx (w : World) (path : Py.str) : M unit :=
  write (xlsx_header path) ;;
  try_except
    (z <- call (ZipOpen path) (zipfile_ZipFile w path) ;;
     for_each (namelist z) (entry_body w z))
    (fun e => write (xlsx_failure e)).

(** The three paths of the driver; the folder name is U+0645 U+062D U+0631
    U+0631. *)
Definition folder : Py.str := lit "e:\" ++ [1605; 1581; 1585; 1585].
Definition out_path : Py.str := folder ++ lit "\extracted_text.txt".
Definition docx_path : Py.str :=
  folder ++ lit "\docs\competitive-analysis-avan-titre.docx".
Definition xlsx_path : Py.str :=
  folder ++ lit "\docs\competitive-analysis-avan-titre.xlsx".

(** The block under [with open(out_path, "w", ...) as f]. *)
Definition main_block (w : World) : M unit :=
  read_docx w docx_path ;; read_xlsx w xlsx_path.

(** The exit status of the interpreter: 1 after an uncaught exception. *)
Definition exit_status {A : Type} (r : result A) : N :=
  match r with
  | inl _ => 1
  | inr _ => 0
  end.

(** One run of the script in which [open(out_path, "w", ...)] succeeded.
    [old] is the text the output file held before the run ([None] when there
    was no file); mode ["w"] truncates it, and the [with] statement closes
    the file on every way out of the block. *)
Definition main (w : World) (old : option Py.str) : Py.str * N :=
  let (t, r) := main_block w [] in (file_text t, exit_status r).

(** The whole script, [open] included.  [opened] is what
    [open(out_path, "w", encoding="utf-8")] answers.  When it raises, nothing
    catches the exception: no extractor is called, the output file stays as
    it was ([old]) and the status is 1.  Otherwise the run is [main]. *)
Definition run_script (w : World) (opened : result unit)
           (old : option Py.str) : option Py.str * N :=
  match opened with
  | inl _ => (old, 1)
  | inr _ => (Some (fst (main w old)), snd (main w old))
  end.

(** The lines of a text, cut at every line feed; used to read an output file
    line by line. *)
Fixpoint lines_from (cur : Py.str) (s : Py.str) : list Py.str :=
  match s with
  | [] => match cur with [] => [] | _ :: _ => [rev cur] end
  | c :: s' =>
      if c =? LF then rev cur :: lines_from [] s' else lines_from (c :: cur) s'
  end.

Definition file_lines (s : Py.str) : list Py.str := lines_from [] s.

(** ** What each block does, as a list of events

    These are written from the description of the script, one per block, and
    are proved below to be what the code of the block appends to the trace. *)

(** A paragraph is written, untouched, when trimming leaves something. *)
Definition paragraph_events (p : Paragraph) : list event :=
  if truthy (strip (p_text p)) then [Write (p_text p ++ [LF])] else [].

(** A row is written when one of its normalised cells is not empty. *)
Definition row_events (row : Row) : list event :=
  let data := List.map cell_entry (cells row) in
  if existsb truthy data then [Write (join (lit " | ") data ++ [LF])] else [].

(** The events of the word-document extractor after a successful open. *)
Definition document_events (doc : Document) : list event :=
  flat_map paragraph_events (paragraphs doc)
  ++ flat_map (fun table => flat_map row_events (rows table)) (tables doc).

(** The texts to write for a parsed entry: the trimmed direct text of every
    node, in pre-order, where trimming leaves something. *)
Definition node_lines (root : Element) : list Py.str :=
  flat_map
    (fun elem =>
       match elem_text elem with
       | Some s => if truthy (strip s) then [strip s ++ [LF]] else []
       | None => []
       end)
    (iter root).

(** An entry: nothing unless its name ends in [.xml]; then it is read, and
    parsed if the read succeeded, and its node texts are written if the parse
    succeeded. *)
Definition entry_events (w : World) (z : ZipFile) (name : Py.str)
  : list event :=
  if endswith name (lit ".xml") then
    ZipRead name ::
    match read z name with
    | inl _ => []
    | inr data =>
        XmlParse data ::
        match ET_fromstring w data with
        | inl _ => []
        | inr root => List.map Write (node_lines root)
        end
    end
  else [].

(** The tree with every [.tail] removed. *)
Fixpoint erase_tails (e : Element) : Element :=
  match e with
  | mkElement tg tx _ cs => mkElement tg tx None (List.map erase_tails cs)
  end.

(** The world whose XML parser drops every [.tail]. *)
Definition erase_tails_world (w : World) : World :=
  {| docx_Document := docx_Document w;
     zipfile_ZipFile := zipfile_ZipFile w;
     ET_fromstring := fun data =>
       match ET_fromstring w data with
       | inl e => inl e
       | inr root => inr (erase_tails root)
       end |}.

(** Two worlds hold the same input files for the driver: the same document,
    the same archive (same failure, or same names in the same order with the
    same contents) and the same parser. *)
Definition same_inputs (w1 w2 : World) : Prop :=
  docx_Document w1 docx_path = docx_Document w2 docx_path
  /\ match zipfile_ZipFile w1 xlsx_path, zipfile_ZipFile w2 xlsx_path with
     | inl e1, inl e2 => e1 = e2
     | inr z1, inr z2 =>
         namelist z1 = namelist z2
         /\ forall name, In name (namelist z1) -> read z1 name = read z2 name
     | _, _ => False
     end
  /\ forall data, ET_fromstring w1 data = ET_fromstring w2 data.

(** ** Words for the statements about whole documents *)

(** A paragraph with a character that is not white space. *)
Definition paragraph_nonblank (p : Paragraph) : bool :=
  negb (forallb isspace (p_text p)).

(** A row with a cell that has a character that is not white space. *)
Definition row_nonblank (row : Row) : bool :=
  existsb (fun cell => negb (forallb isspace (cell_text cell))) (cells row).

(** The text of a row: its normalised cells joined by [" | "]. *)
Definition row_text (row : Row) : Py.str :=
  join (lit " | ") (List.map cell_entry (cells row)).

(** A chunk that is one complete line: a body and its closing line feed. *)
Definition ends_LF (chunk : Py.str) : Prop :=
  exists body, chunk = body ++ [LF].

(** ** Sample inputs *)

Module Sample.

Definition cell (s : String.string) : Cell := {| cell_text := lit s |}.
Arguments cell s%_string.

(** The row of the three cells ["a"], the empty string and [" b\nc "]. *)
Definition row_abc : Row :=
  {| cells := [cell "a"; {| cell_text := [] |};
               {| cell_text := lit " b" ++ [LF] ++ lit "c " |}] |}.

(** A row of an empty cell, a cell of blanks and a cell of a tab and a line
    feed. *)
Definition row_blank : Row :=
  {| cells := [{| cell_text := [] |}; cell "   ";
               {| cell_text := [9; LF] |}] |}.

(** A document of three paragraphs, [" hi"], ["   "] and ["bye"], and one
    table of the two rows above. *)
Definition doc : Document :=
  {| paragraphs := [ {| p_text := lit " hi" |}; {| p_text := lit "   " |};
                     {| p_text := lit "bye" |} ];
     tables := [ {| rows := [row_blank; row_abc] |} ] |}.

Definition bad_data : Py.bytes := [Byte.x3c].
Definition good_data : Py.bytes := [Byte.x3c; Byte.x61; Byte.x2f; Byte.x3e].

(** [<si><t>Revenue</t> after </si>]: the text [" after "] is the tail of
    [t]. *)
Definition good_root : Element :=
  mkElement (lit "si") None None
    [mkElement (lit "t") (Some (lit "Revenue")) (Some (lit " after ")) []].

(** An archive of three entries: one that does not parse, one that is not
    XML by name, and one that parses. *)
Definition archive : ZipFile :=
  {| namelist := [lit "bad.xml"; lit "media/image1.png"; lit "good.xml"];
     read := fun name =>
       if Py.eqb name (lit "bad.xml") then inr bad_data
       else if Py.eqb name (lit "good.xml") then inr good_data
       else inl (Exn (lit "no item")) |}.

Definition parser (data : Py.bytes) : result Element :=
  match data with
  | [_; _; _; _] => inr good_root
  | _ => inl (Exn (lit "syntax error"))
  end.

(** A world where both files are there. *)
Definition world_ok : World :=
  {| docx_Document := fun _ => inr doc;
     zipfile_ZipFile := fun _ => inr archive;
     ET_fromstring := parser |}.

(** A world where the spreadsheet is not a zip file. *)
Definition world_bad_zip : World :=
  {| docx_Document := fun _ => inr doc;
     zipfile_ZipFile := fun _ => inl (Exn (lit "File is not a zip file"));
     ET_fromstring := parser |}.

(** A world where the word document is missing. *)
Definition world_no_docx : World :=
  {| docx_Document := fun _ => inl (Exn (lit "Package not found"));
     zipfile_ZipFile := fun _ => inr archive;
     ET_fromstring := parser |}.

(** [world_ok], except that other paths than the driver's answer
    differently. *)
Definition world_ok' : World :=
  {| docx_Document := fun path =>
       if Py.eqb path docx_path then inr doc else inl (Exn (lit "other"));
     zipfile_ZipFile := fun path =>
       if Py.eqb path xlsx_path then inr archive else inl (Exn (lit "other"));
     ET_fromstring := parser |}.

(** An archive whose first entry cannot be read, though its name ends in
    [.xml], followed by one that parses. *)
Definition archive_locked : ZipFile :=
  {| namelist := [lit "locked.xml"; lit "good.xml"];
     read := fun name =>
       if Py.eqb name (lit "good.xml") then inr good_data
       else inl (Exn (lit "File is encrypted")) |}.

Definition world_locked : World :=
  {| docx_Document := fun _ => inr doc;
     zipfile_ZipFile := fun _ => inr archive_locked;
     ET_fromstring := parser |}.

(** An archive without any name ending in [.xml]. *)
Definition archive_media : ZipFile :=
  {| namelist := [lit "media/image1.png"; lit "sheet.XML"; lit "xml"];
     read := fun _ => inr good_data |}.

Definition world_media : World :=
  {| docx_Document := fun _ => inr doc;
     zipfile_ZipFile := fun _ => inr archive_media;
     ET_fromstring := parser |}.

End Sample.

(** ** Facts about the string operations *)

Section Strings.

Lemma isspace_LF : isspace LF = true.
Proof. reflexivity. Qed.

Lemma isspace_SP : isspace SP = true.
Proof. reflexivity. Qed.

Lemma lstrip_blank (s : Py.str) :
  forallb isspace s = true -> lstrip s = [].
Proof.
  induction s as [|c s IH]; simpl; [reflexivity|].
  intros H. apply andb_true_iff in H as [Hc Hs].
  rewrite Hc. now apply IH.
Qed.

Lemma lstrip_head (s : Py.str) (c : Py.char) (r : Py.str) :
  lstrip s = c :: r -> isspace c = false.
Proof.
  induction s as [|d s IH]; simpl; [discriminate|].
  destruct (isspace d) eqn:Hd; [exact IH|].
  intros H. injection H as -> _. exact Hd.
Qed.

Lemma lstrip_nil (s : Py.str) :
  lstrip s = [] -> forallb isspace s = true.
Proof.
  induction s as [|c s IH]; simpl; [reflexivity|].
  destruct (isspace c); [exact IH | discriminate].
Qed.

Lemma forallb_rev (f : Py.char -> bool) (s : Py.str) :
  forallb f (rev s) = forallb f s.
Proof.
  induction s as [|c s IH]; simpl; [reflexivity|].
  rewrite forallb_app, IH. simpl. rewrite andb_true_r. apply andb_comm.
Qed.

(** Trimming leaves nothing exactly when the string is empty or made of
    white space only. *)
Lemma strip_nil_iff (s : Py.str) :
  strip s = [] <-> forallb isspace s = true.
Proof.
  unfold strip, rstrip. split.
  - intros H.
    destruct (lstrip s) as [|c r] eqn:E; [now apply lstrip_nil|].
    exfalso.
    assert (Hc : isspace c = false) by (eapply lstrip_head; exact E).
    assert (H' : lstrip (rev (c :: r)) = []).
    { destruct (lstrip (rev (c :: r))) as [|d u]; [reflexivity|].
      simpl in H. apply app_eq_nil in H as [_ H]. discriminate. }
    apply lstrip_nil in H'. rewrite forallb_rev in H'. simpl in H'.
    rewrite Hc in H'. discriminate.
  - intros H. rewrite (lstrip_blank s H). reflexivity.
Qed.

Lemma truthy_false_iff (s : Py.str) : truthy s = false <-> s = [].
Proof. destruct s; simpl; split; congruence. Qed.

Lemma truthy_strip_false (s : Py.str) :
  truthy (strip s) = false <-> forallb isspace s = true.
Proof. rewrite truthy_false_iff. apply strip_nil_iff. Qed.

Lemma truthy_strip (s : Py.str) :
  truthy (strip s) = true -> truthy s = true.
Proof. destruct s; [discriminate | reflexivity]. Qed.

Lemma lstrip_incl (s : Py.str) (c : Py.char) : In c (lstrip s) -> In c s.
Proof.
  induction s as [|d s IH]; simpl; [tauto|].
  destruct (isspace d); [intros H; right; now apply IH | simpl; tauto].
Qed.

(** Trimming only removes characters. *)
Lemma strip_incl (s : Py.str) (c : Py.char) : In c (strip s) -> In c s.
Proof.
  unfold strip, rstrip. intros H.
  apply in_rev, lstrip_incl in H. apply in_rev in H.
  now apply lstrip_incl.
Qed.

(** Replacing one character by one character is a map. *)
Lemma replace_char (old new : Py.char) (s : Py.str) :
  replace old [new] s = List.map (fun c => if c =? old then new else c) s.
Proof.
  unfold replace. induction s as [|c s IH]; simpl; [reflexivity|].
  rewrite IH. now destruct (c =? old).
Qed.

Lemma replace_LF_free (s : Py.str) : ~ In LF (replace LF [SP] s).
Proof.
  rewrite replace_char. intros H. apply in_map_iff in H as [c [Hc _]].
  destruct (c =? LF) eqn:E; [discriminate|].
  apply N.eqb_neq in E. congruence.
Qed.

Lemma replace_blank (s : Py.str) :
  forallb isspace (replace LF [SP] s) = forallb isspace s.
Proof.
  rewrite replace_char. induction s as [|c s IH]; simpl; [reflexivity|].
  rewrite IH. f_equal.
  destruct (c =? LF) eqn:E; [|reflexivity].
  apply N.eqb_eq in E. subst c. reflexivity.
Qed.

Lemma join_free (x : Py.char) (sep : Py.str) (l : list Py.str) :
  ~ In x sep -> (forall s, In s l -> ~ In x s) -> ~ In x (join sep l).
Proof.
  intros Hsep. induction l as [|s l IH]; intros Hl; [simpl; tauto|].
  destruct l as [|s' l'].
  - simpl. apply Hl. now left.
  - change (join sep (s :: s' :: l')) with (s ++ sep ++ join sep (s' :: l')).
    intros H. apply in_app_or in H as [H|H].
    + apply (Hl s); [now left | exact H].
    + apply in_app_or in H as [H|H]; [now apply Hsep|].
      revert H. apply IH. intros s0 H0. apply Hl. now right.
Qed.

Lemma cell_entry_LF_free (cell : Cell) : ~ In LF (cell_entry cell).
Proof.
  unfold cell_entry. intros H. apply strip_incl in H.
  exact (replace_LF_free _ H).
Qed.

Lemma cell_entry_blank (cell : Cell) :
  cell_entry cell = [] <-> forallb isspace (cell_text cell) = true.
Proof.
  unfold cell_entry. rewrite strip_nil_iff. now rewrite replace_blank.
Qed.

End Strings.

(** ** What each block appends to the trace *)

Section Blocks.

Lemma app_cons_assoc {A : Type} (t : list A) (x : A) (l : list A) :
  (t ++ [x]) ++ l = t ++ x :: l.
Proof. now rewrite <- app_assoc. Qed.

(** A loop whose body always returns appends the events of its rounds. *)
Lemma for_each_events {A : Type} (body : A -> M unit) (ev : A -> list event) :
  (forall x t, body x t = (t ++ ev x, inr tt)) ->
  forall l t, for_each l body t = (t ++ flat_map ev l, inr tt).
Proof.
  intros Hbody. induction l as [|x l IH]; intros t; simpl.
  - unfold ret. now rewrite app_nil_r.
  - unfold bind. rewrite Hbody, IH. now rewrite app_assoc.
Qed.

Lemma paragraph_body_run (p : Paragraph) (t : trace) :
  paragraph_body p t = (t ++ paragraph_events p, inr tt).
Proof.
  unfold paragraph_body, paragraph_events.
  destruct (truthy (strip (p_text p))); [reflexivity|].
  unfold ret. now rewrite app_nil_r.
Qed.

(** The appends of the loop over the cells build the list of the normalised
    cells, in row order. *)
Lemma row_data_map (row : Row) : row_data row = List.map cell_entry (cells row).
Proof.
  unfold row_data.
  assert (H : forall l acc,
             fold_left (fun a c => a ++ [cell_entry c]) l acc
             = acc ++ List.map cell_entry l).
  { induction l as [|c l IH]; intros acc; simpl.
    - now rewrite app_nil_r.
    - rewrite IH. now rewrite <- app_assoc. }
  apply (H (cells row) []).
Qed.

Lemma row_body_run (row : Row) (t : trace) :
  row_body row t = (t ++ row_events row, inr tt).
Proof.
  unfold row_body, row_events, any. rewrite row_data_map. cbv zeta.
  destruct (existsb truthy (List.map cell_entry (cells row))); [reflexivity|].
  unfold ret. now rewrite app_nil_r.
Qed.

Lemma read_docx_run (w : World) (path : Py.str) (t : trace) :
  read_docx w path t =
  match docx_Document w path with
  | inl e => (t ++ [Write (docx_header path); DocxOpen path], inl e)
  | inr doc =>
      (t ++ Write (docx_header path) :: DocxOpen path :: document_events doc,
       inr tt)
  end.
Proof.
  unfold read_docx, bind, write, call.
  destruct (docx_Document w path) as [e|doc].
  - now rewrite app_cons_assoc.
  - rewrite (for_each_events _ _ paragraph_body_run).
    rewrite (for_each_events _ (fun table => flat_map row_events (rows table))).
    + unfold document_events.
      rewrite <- !app_assoc. reflexivity.
    + intros table t0. apply (for_each_events _ _ row_body_run).
Qed.

Lemma flat_map_map_out {A B C : Type} (f : B -> C) (g : A -> list B)
      (l : list A) :
  flat_map (fun x => List.map f (g x)) l = List.map f (flat_map g l).
Proof.
  induction l as [|x l IH]; simpl; [reflexivity|].
  now rewrite IH, map_app.
Qed.

Lemma elem_body_run (elem : Element) (t : trace) :
  elem_body elem t =
  (t ++ List.map Write
          match elem_text elem with
          | Some s => if truthy (strip s) then [strip s ++ [LF]] else []
          | None => []
          end,
   inr tt).
Proof.
  unfold elem_body, text_test, text_strip.
  destruct (elem_text elem) as [s|]; [|unfold ret; now rewrite app_nil_r].
  destruct (truthy (strip s)) eqn:E.
  - now rewrite (truthy_strip s E).
  - rewrite andb_false_r. unfold ret. now rewrite app_nil_r.
Qed.

Lemma iter_run (root : Element) (t : trace) :
  for_each (iter root) elem_body t
  = (t ++ List.map Write (node_lines root), inr tt).
Proof.
  rewrite (for_each_events _ _ elem_body_run).
  unfold node_lines. now rewrite flat_map_map_out.
Qed.

Lemma entry_body_run (w : World) (z : ZipFile) (name : Py.str) (t : trace) :
  entry_body w z name t = (t ++ entry_events w z name, inr tt).
Proof.
  unfold entry_body, entry_events.
  destruct (endswith name (lit ".xml"));
    [|unfold ret; now rewrite app_nil_r].
  unfold entry_try, try_except, bind, call, ret.
  destruct (read z name) as [e|data]; [reflexivity|].
  destruct (ET_fromstring w data) as [e|root].
  - now rewrite app_cons_assoc.
  - rewrite iter_run. now rewrite !app_cons_assoc.
Qed.

Lemma read_xlsx_run (w : World) (path : Py.str) (t : trace) :
  read_xlsx w path t =
  (t ++ Write (xlsx_header path) :: ZipOpen path ::
        match zipfile_ZipFile w path with
        | inl e => [Write (xlsx_failure e)]
        | inr z => flat_map (entry_events w z) (namelist z)
        end,
   inr tt).
Proof.
  unfold read_xlsx, try_except, bind, write, call.
  destruct (zipfile_ZipFile w path) as [e|z].
  - now rewrite !app_cons_assoc.
  - rewrite (for_each_events _ _ (entry_body_run w z)).
    now rewrite !app_cons_assoc.
Qed.

Lemma main_block_run (w : World) :
  main_block w [] =
  match docx_Document w docx_path with
  | inl e => ([Write (docx_header docx_path); DocxOpen docx_path], inl e)
  | inr doc =>
      ((Write (docx_header docx_path) :: DocxOpen docx_path ::
        document_events doc)
       ++ Write (xlsx_header xlsx_path) :: ZipOpen xlsx_path ::
          match zipfile_ZipFile w xlsx_path with
          | inl e => [Write (xlsx_failure e)]
          | inr z => flat_map (entry_events w z) (namelist z)
          end,
       inr tt)
  end.
Proof.
  unfold main_block, bind. rewrite read_docx_run.
  destruct (docx_Document w docx_path) as [e|doc]; [reflexivity|].
  now rewrite read_xlsx_run.
Qed.

Lemma written_app (t u : trace) : written (t ++ u) = written t ++ written u.
Proof.
  induction t as [|ev t IH]; simpl; [reflexivity|].
  destruct ev; simpl; now rewrite IH.
Qed.

Lemma written_map_Write (l : list Py.str) : written (List.map Write l) = l.
Proof. induction l as [|s l IH]; simpl; [reflexivity | now rewrite IH]. Qed.

Lemma file_text_app (t u : trace) :
  file_text (t ++ u) = file_text t ++ file_text u.
Proof. unfold file_text. now rewrite written_app, concat_app. Qed.

Lemma file_text_Write (chunk : Py.str) (t : trace) :
  file_text (Write chunk :: t) = chunk ++ file_text t.
Proof. reflexivity. Qed.

Lemma main_run (w : World) (old : option Py.str) :
  main w old = (file_text (fst (main_block w [])),
                exit_status (snd (main_block w []))).
Proof. unfold main. now destruct (main_block w []). Qed.

End Blocks.

(** ** The word-document extractor *)

(** C1, as the code has it: when the document opens, the extractor writes
    the header, then, in document order, the text of every paragraph that is
    not empty and not white space only, unchanged (leading and trailing white
    space included) and followed by a line feed, then the table rows; a
    paragraph that is empty or white space only gives no write. *)
Theorem read_docx_paragraphs :
  forall (w : World) (path : Py.str) (doc : Document) (t : trace),
    docx_Document w path = inr doc ->
    snd (read_docx w path t) = inr tt
    /\ written (fst (read_docx w path t)) =
       written t
       ++ [docx_header path]
       ++ List.map (fun p => p_text p ++ [LF])
            (filter (fun p => negb (forallb isspace (p_text p)))
                    (paragraphs doc))
       ++ written (flat_map (fun table => flat_map row_events (rows table))
                            (tables doc)).
Proof.
  intros w path doc t Hdoc. rewrite read_docx_run, Hdoc. simpl.
  split; [reflexivity|].
  rewrite written_app. simpl. f_equal. f_equal.
  unfold document_events. rewrite written_app. f_equal.
  induction (paragraphs doc) as [|p ps IH]; simpl; [reflexivity|].
  rewrite written_app, IH. unfold paragraph_events.
  destruct (truthy (strip (p_text p))) eqn:E.
  - destruct (forallb isspace (p_text p)) eqn:B; [|reflexivity].
    apply truthy_strip_false in B. congruence.
  - apply truthy_strip_false in E. rewrite E. reflexivity.
Qed.

Lemma read_docx_paragraphs_witness :
  docx_Document Sample.world_ok docx_path = inr Sample.doc
  /\ written (fst (read_docx Sample.world_ok docx_path [])) =
     [docx_header docx_path; lit " hi" ++ [LF]; lit "bye" ++ [LF];
      lit "a |  | b c" ++ [LF]].
Proof.
  split; [reflexivity|].
  exact (proj2 (read_docx_paragraphs Sample.world_ok docx_path Sample.doc []
                  eq_refl)).
Defined.

(** C1 as stated fails: the paragraph [" hi"] trims to ["hi"], which is not
    empty, yet no chunk written is ["hi\n"] and no line of the output is
    ["hi"]; the line written is [" hi"]. *)
Lemma read_docx_trimmed_counterexample :
  let p := {| p_text := lit " hi" |} in
  let t := fst (read_docx Sample.world_ok docx_path []) in
  In p (paragraphs Sample.doc)
  /\ strip (p_text p) = lit "hi"
  /\ ~ In (strip (p_text p) ++ [LF]) (written t)
  /\ ~ In (strip (p_text p)) (file_lines (file_text t))
  /\ In (lit " hi") (file_lines (file_text t)).
Proof.
  cbv zeta. split; [now left|]. split; [reflexivity|].
  split; [|split].
  - vm_compute. intros H.
    repeat (destruct H as [H|H]; [discriminate H|]). exact H.
  - vm_compute. intros H.
    repeat (destruct H as [H|H]; [discriminate H|]). exact H.
  - vm_compute. right. now left.
Qed.

(** C4: for a document that opens and a row of one of its tables with a
    non-empty normalised cell, the extractor writes the row as one chunk, at
    the row's place in the output: the cells in row order, each with its line
    feeds turned into spaces and then trimmed, joined by [" | "], and a line
    feed; that line feed is the only one of the chunk.  The row of the cells
    ["a"], empty and [" b\nc "] gives [a |  | b c]. *)
Theorem row_line :
  (forall (w : World) (path : Py.str) (doc : Document)
          (tb : list Table) (table : Table) (ta : list Table)
          (rb : list Row) (row : Row) (ra : list Row) (t : trace),
      docx_Document w path = inr doc ->
      tables doc = tb ++ table :: ta ->
      rows table = rb ++ row :: ra ->
      any (row_data row) = true ->
      let line :=
        join (lit " | ")
          (List.map
             (fun cell =>
                strip (List.map (fun c => if c =? LF then SP else c)
                                (cell_text cell)))
             (cells row)) in
      let rows_of :=
        flat_map (fun table' => flat_map row_events (rows table')) in
      row_body row t = (t ++ [Write (line ++ [LF])], inr tt)
      /\ ~ In LF line
      /\ read_docx w path t =
         (t ++ Write (docx_header path) :: DocxOpen path
            :: flat_map paragraph_events (paragraphs doc)
            ++ rows_of tb ++ flat_map row_events rb
            ++ Write (line ++ [LF])
            :: flat_map row_events ra ++ rows_of ta,
          inr tt))
  /\ row_body Sample.row_abc [] = ([Write (lit "a |  | b c" ++ [LF])], inr tt)
  /\ (forall (w : World) (path : Py.str),
        docx_Document w path
        = inr {| paragraphs := [];
                 tables := [ {| rows := [Sample.row_abc] |} ] |} ->
        read_docx w path [] =
        ([Write (docx_header path); DocxOpen path;
          Write (lit "a |  | b c" ++ [LF])], inr tt)).
Proof.
  split; [|split; [reflexivity|]].
  - intros w path doc tb table ta rb row ra t Hdoc Htables Hrows Hany
           line rows_of.
    assert (Hline : line = join (lit " | ") (List.map cell_entry (cells row))).
    { unfold line. f_equal. apply map_ext. intros cell.
      unfold cell_entry. now rewrite replace_char. }
    assert (Hrow : row_events row = [Write (line ++ [LF])]).
    { unfold row_events. cbv zeta.
      unfold any in Hany. rewrite row_data_map in Hany. rewrite Hany.
      now rewrite Hline. }
    split; [|split].
    + now rewrite row_body_run, Hrow.
    + rewrite Hline. apply join_free.
      * vm_compute. intros H.
        repeat (destruct H as [H|H]; [discriminate H|]). exact H.
      * intros s Hs. apply in_map_iff in Hs as [cell [<- _]].
        apply cell_entry_LF_free.
    + rewrite read_docx_run, Hdoc. unfold document_events.
      rewrite Htables, flat_map_app. cbn [flat_map].
      rewrite Hrows, flat_map_app. cbn [flat_map]. rewrite Hrow.
      unfold rows_of. do 4 f_equal. rewrite <- !app_assoc. reflexivity.
  - intros w path Hdoc. now rewrite read_docx_run, Hdoc.
Qed.

Lemma row_line_witness :
  docx_Document Sample.world_ok docx_path = inr Sample.doc
  /\ any (row_data Sample.row_abc) = true
  /\ read_docx Sample.world_ok docx_path [] =
     ([Write (docx_header docx_path); DocxOpen docx_path;
       Write (lit " hi" ++ [LF]); Write (lit "bye" ++ [LF]);
       Write (lit "a |  | b c" ++ [LF])], inr tt).
Proof.
  split; [reflexivity|]. split; [reflexivity|].
  exact (proj2 (proj2
    (proj1 row_line Sample.world_ok docx_path Sample.doc
       [] {| rows := [Sample.row_blank; Sample.row_abc] |} []
       [Sample.row_blank] Sample.row_abc [] []
       eq_refl eq_refl eq_refl eq_refl))).
Defined.

(** C5: a row whose cells are all empty or white space only leaves the
    output as it was: nothing is appended to the trace, and the loop goes
    on. *)
Theorem blank_row_skipped :
  forall (row : Row) (t : trace),
    (forall cell, In cell (cells row) ->
                  forallb isspace (cell_text cell) = true) ->
    row_body row t = (t, inr tt).
Proof.
  intros row t Hblank. rewrite row_body_run. unfold row_events. cbv zeta.
  replace (existsb truthy (List.map cell_entry (cells row))) with false.
  - now rewrite app_nil_r.
  - symmetry. apply not_true_is_false. intros H.
    apply existsb_exists in H as [s [Hs Ht]].
    apply in_map_iff in Hs as [cell [<- Hc]].
    apply Hblank, cell_entry_blank in Hc. rewrite Hc in Ht. discriminate.
Qed.

Lemma blank_row_skipped_witness :
  forallb (fun cell => forallb isspace (cell_text cell))
          (cells Sample.row_blank) = true
  /\ row_body Sample.row_blank [Write (lit "x")] = ([Write (lit "x")], inr tt).
Proof.
  split; [reflexivity|].
  apply (blank_row_skipped Sample.row_blank [Write (lit "x")]).
  intros cell H. simpl in H.
  repeat (destruct H as [H|H]; [subst cell; reflexivity|]).
  destruct H.
Defined.

(** ** The spreadsheet extractor *)

Section Spreadsheet.

Lemma in_entry_read (w : World) (z : ZipFile) (name n : Py.str) :
  In (ZipRead n) (entry_events w z name) <->
  n = name /\ endswith name (lit ".xml") = true.
Proof.
  unfold entry_events. destruct (endswith name (lit ".xml")); simpl.
  - split.
    + intros [H|H]; [injection H as <-; now split|].
      exfalso. destruct (read z name) as [e|data]; [exact H|].
      destruct H as [H|H]; [discriminate|].
      destruct (ET_fromstring w data) as [e|root]; [exact H|].
      apply in_map_iff in H as [s [Hs _]]. discriminate.
    + intros [-> _]. now left.
  - split; [tauto | intros [_ H]; discriminate].
Qed.

Lemma in_entry_parse (w : World) (z : ZipFile) (name : Py.str)
      (data : Py.bytes) :
  In (XmlParse data) (entry_events w z name) <->
  endswith name (lit ".xml") = true /\ read z name = inr data.
Proof.
  unfold entry_events. destruct (endswith name (lit ".xml")); simpl.
  - split.
    + intros [H|H]; [discriminate|].
      destruct (read z name) as [e|d]; [destruct H|].
      destruct H as [H|H]; [injection H as ->; now split|].
      exfalso. destruct (ET_fromstring w d) as [e|root]; [exact H|].
      apply in_map_iff in H as [s [Hs _]]. discriminate.
    + intros [_ ->]. right. now left.
  - split; [tauto | intros [H _]; discriminate].
Qed.

(** An entry that does not parse writes nothing. *)
Lemma entry_parse_failure (w : World) (z : ZipFile) (name : Py.str)
      (data : Py.bytes) (e : exn) :
  read z name = inr data -> ET_fromstring w data = inl e ->
  written (entry_events w z name) = [].
Proof.
  intros Hr Hp. unfold entry_events.
  destruct (endswith name (lit ".xml")); [|reflexivity].
  now rewrite Hr, Hp.
Qed.

Lemma entry_parse_success (w : World) (z : ZipFile) (name : Py.str)
      (data : Py.bytes) (root : Element) :
  endswith name (lit ".xml") = true ->
  read z name = inr data -> ET_fromstring w data = inr root ->
  written (entry_events w z name) = node_lines root.
Proof.
  intros Hx Hr Hp. unfold entry_events. rewrite Hx, Hr, Hp. simpl.
  apply written_map_Write.
Qed.

Lemma written_flat_map {A : Type} (ev : A -> list event) (l : list A) :
  written (flat_map ev l) = flat_map (fun x => written (ev x)) l.
Proof.
  induction l as [|x l IH]; simpl; [reflexivity|].
  now rewrite written_app, IH.
Qed.

Lemma flat_map_ext_in {A B : Type} (f g : A -> list B) (l : list A) :
  (forall x, In x l -> f x = g x) -> flat_map f l = flat_map g l.
Proof.
  induction l as [|x l IH]; intros H; simpl; [reflexivity|].
  rewrite (H x (or_introl eq_refl)). f_equal.
  apply IH. intros y Hy. apply H. now right.
Qed.

(** The direct texts of the nodes do not change when the tails go. *)
Lemma iter_erase_tails (root : Element) :
  List.map elem_text (iter (erase_tails root)) = List.map elem_text (iter root).
Proof.
  induction root as [tg tx tl cs IH] using Element_ind. simpl. f_equal.
  induction IH as [|c cs Hc _ IHcs]; simpl; [reflexivity|].
  now rewrite !map_app, Hc, IHcs.
Qed.

Lemma node_lines_texts (root : Element) :
  node_lines root =
  flat_map
    (fun tx => match tx with
               | Some s => if truthy (strip s) then [strip s ++ [LF]] else []
               | None => []
               end)
    (List.map elem_text (iter root)).
Proof.
  unfold node_lines. induction (iter root) as [|e l IH]; simpl;
    [reflexivity | now rewrite IH].
Qed.

Lemma node_lines_erase_tails (root : Element) :
  node_lines (erase_tails root) = node_lines root.
Proof. now rewrite !node_lines_texts, iter_erase_tails. Qed.

Lemma entry_events_erase_tails (w : World) (z : ZipFile) (name : Py.str) :
  entry_events (erase_tails_world w) z name = entry_events w z name.
Proof.
  unfold entry_events. destruct (endswith name (lit ".xml")); [|reflexivity].
  f_equal. destruct (read z name) as [e|data]; [reflexivity|].
  f_equal. simpl. destruct (ET_fromstring w data) as [e|root]; [reflexivity|].
  now rewrite node_lines_erase_tails.
Qed.

End Spreadsheet.

(** C2: when opening the archive fails with exception [e], the spreadsheet
    extractor writes its header, then the one chunk
    [Failed to read xlsx: <str(e)>] with a line feed, reads and parses
    nothing, and returns without raising; a run of the driver that got as far
    as this open ends with status 0 and with that chunk as the end of the
    output file. *)
Theorem xlsx_open_failure :
  forall (w : World) (path : Py.str) (e : exn) (t : trace),
    zipfile_ZipFile w path = inl e ->
    read_xlsx w path t =
      (t ++ [Write (xlsx_header path); ZipOpen path;
             Write (lit "Failed to read xlsx: " ++ exn_str e ++ [LF])],
       inr tt)
    /\ (path = xlsx_path ->
        In (ZipOpen xlsx_path) (fst (main_block w [])) ->
        forall old,
          snd (main w old) = 0
          /\ exists before,
               fst (main w old) =
               before ++ xlsx_header xlsx_path
                      ++ lit "Failed to read xlsx: " ++ exn_str e ++ [LF]).
Proof.
  intros w path e t Hzip. split.
  - now rewrite read_xlsx_run, Hzip.
  - intros -> Hreach old. rewrite main_run. revert Hreach.
    rewrite main_block_run.
    destruct (docx_Document w docx_path) as [e'|doc]; cbn [fst snd].
    + intros [H|[H|[]]]; discriminate.
    + intros _. split; [reflexivity|].
      exists (file_text (Write (docx_header docx_path) :: DocxOpen docx_path
                           :: document_events doc)).
      rewrite Hzip, file_text_app. f_equal.
      rewrite file_text_Write. f_equal. apply app_nil_r.
Qed.

Lemma xlsx_open_failure_witness :
  zipfile_ZipFile Sample.world_bad_zip xlsx_path
    = inl (Exn (lit "File is not a zip file"))
  /\ read_xlsx Sample.world_bad_zip xlsx_path [] =
     ([Write (xlsx_header xlsx_path); ZipOpen xlsx_path;
       Write (lit "Failed to read xlsx: File is not a zip file" ++ [LF])],
      inr tt)
  /\ snd (main Sample.world_bad_zip None) = 0.
Proof.
  split; [reflexivity|].
  destruct (xlsx_open_failure Sample.world_bad_zip xlsx_path
              (Exn (lit "File is not a zip file")) [] eq_refl) as [Hrun Hmain].
  split; [exact Hrun|].
  refine (proj1 (Hmain eq_refl _ None)).
  vm_compute. tauto.
Defined.

(** C3: an entry named [*.xml] that is read but does not parse is skipped
    without a word: the extractor returns normally, and what it writes is the
    header, what the entries before it give and what the entries after it
    give, nothing for the entry itself.  So a text node ["Revenue"] of any
    other entry that parses is written as the chunk [Revenue] with a line
    feed. *)
Theorem xlsx_bad_entry_skipped :
  forall (w : World) (path : Py.str) (z : ZipFile)
         (before : list Py.str) (bad : Py.str) (after : list Py.str)
         (data : Py.bytes) (e : exn) (t : trace),
    zipfile_ZipFile w path = inr z ->
    namelist z = before ++ bad :: after ->
    endswith bad (lit ".xml") = true ->
    read z bad = inr data ->
    ET_fromstring w data = inl e ->
    snd (read_xlsx w path t) = inr tt
    /\ entry_body w z bad t = (t ++ [ZipRead bad; XmlParse data], inr tt)
    /\ written (fst (read_xlsx w path t)) =
       written t ++ [xlsx_header path]
       ++ written (flat_map (entry_events w z) before)
       ++ written (flat_map (entry_events w z) after)
    /\ (forall (good : Py.str) (gdata : Py.bytes) (root elem : Element),
          In good (before ++ after) ->
          endswith good (lit ".xml") = true ->
          read z good = inr gdata ->
          ET_fromstring w gdata = inr root ->
          In elem (iter root) ->
          elem_text elem = Some (lit "Revenue") ->
          In (lit "Revenue" ++ [LF]) (written (fst (read_xlsx w path t)))).
Proof.
  intros w path z before bad after data e t Hzip Hnames Hx Hr Hp.
  assert (Hw : written (fst (read_xlsx w path t)) =
               written t ++ [xlsx_header path]
               ++ written (flat_map (entry_events w z) before)
               ++ written (flat_map (entry_events w z) after)).
  { rewrite read_xlsx_run, Hzip, Hnames. cbn [fst].
    rewrite written_app. cbn [written]. f_equal.
    cbn [app]. f_equal.
    rewrite flat_map_app, written_app. f_equal.
    cbn [flat_map]. rewrite written_app.
    now rewrite (entry_parse_failure w z bad data e Hr Hp). }
  split; [now rewrite read_xlsx_run|].
  split; [|split; [exact Hw|]].
  - rewrite entry_body_run. unfold entry_events. now rewrite Hx, Hr, Hp.
  - intros good gdata root elem Hin Hgx Hgr Hgp Helem Htext.
    rewrite Hw. apply in_or_app. right. right.
    rewrite <- written_app, <- flat_map_app, written_flat_map.
    apply in_flat_map. exists good. split; [exact Hin|].
    rewrite (entry_parse_success w z good gdata root Hgx Hgr Hgp).
    unfold node_lines. apply in_flat_map. exists elem. split; [exact Helem|].
    rewrite Htext. now left.
Qed.

Lemma xlsx_bad_entry_skipped_witness :
  zipfile_ZipFile Sample.world_ok xlsx_path = inr Sample.archive
  /\ namelist Sample.archive =
     [] ++ lit "bad.xml" :: [lit "media/image1.png"; lit "good.xml"]
  /\ endswith (lit "bad.xml") (lit ".xml") = true
  /\ read Sample.archive (lit "bad.xml") = inr Sample.bad_data
  /\ ET_fromstring Sample.world_ok Sample.bad_data
     = inl (Exn (lit "syntax error"))
  /\ written (fst (read_xlsx Sample.world_ok xlsx_path [])) =
     [xlsx_header xlsx_path; lit "Revenue" ++ [LF]].
Proof.
  repeat (split; [reflexivity|]).
  exact (proj1 (proj2 (proj2
    (xlsx_bad_entry_skipped Sample.world_ok xlsx_path Sample.archive
       [] (lit "bad.xml") [lit "media/image1.png"; lit "good.xml"]
       Sample.bad_data (Exn (lit "syntax error")) []
       eq_refl eq_refl eq_refl eq_refl eq_refl)))).
Defined.

(** C6: on an archive that opens, the extractor returns normally and its
    events are the header, the open, and then, name by name in archive order,
    the events of [entry_events]: nothing for a name that does not end in
    [.xml]; for the others the read, then the parse if the read succeeded,
    then, if the parse succeeded, one write per node in pre-order whose direct
    text is not empty after trimming, of that trimmed text and a line feed.
    The names read are exactly the listed names ending in [.xml], and only
    data read from such an entry is parsed. *)
Theorem read_xlsx_entries :
  forall (w : World) (path : Py.str) (z : ZipFile) (t : trace),
    zipfile_ZipFile w path = inr z ->
    read_xlsx w path t =
      (t ++ Write (xlsx_header path) :: ZipOpen path
            :: flat_map (entry_events w z) (namelist z),
       inr tt)
    /\ (forall name,
          In (ZipRead name) (fst (read_xlsx w path [])) <->
          In name (namelist z) /\ endswith name (lit ".xml") = true)
    /\ (forall data,
          In (XmlParse data) (fst (read_xlsx w path [])) <->
          exists name, In name (namelist z)
                       /\ endswith name (lit ".xml") = true
                       /\ read z name = inr data).
Proof.
  intros w path z t Hzip. rewrite !read_xlsx_run, Hzip. cbn [fst app].
  split; [reflexivity|]. split.
  - intros name. split.
    + intros [H|[H|H]]; try discriminate.
      apply in_flat_map in H as [n [Hn H]].
      apply in_entry_read in H as [-> Hx]. now split.
    + intros [Hn Hx]. right. right. apply in_flat_map.
      exists name. split; [exact Hn|]. now apply in_entry_read.
  - intros data. split.
    + intros [H|[H|H]]; try discriminate.
      apply in_flat_map in H as [n [Hn H]].
      apply in_entry_parse in H as [Hx Hr]. now exists n.
    + intros [n [Hn [Hx Hr]]]. right. right. apply in_flat_map.
      exists n. split; [exact Hn|]. now apply in_entry_parse.
Qed.

Lemma read_xlsx_entries_witness :
  zipfile_ZipFile Sample.world_ok xlsx_path = inr Sample.archive
  /\ read_xlsx Sample.world_ok xlsx_path [] =
     ([Write (xlsx_header xlsx_path); ZipOpen xlsx_path;
       ZipRead (lit "bad.xml"); XmlParse Sample.bad_data;
       ZipRead (lit "good.xml"); XmlParse Sample.good_data;
       Write (lit "Revenue" ++ [LF])],
      inr tt).
Proof.
  split; [reflexivity|].
  exact (proj1 (read_xlsx_entries Sample.world_ok xlsx_path Sample.archive []
                  eq_refl)).
Defined.

(** C9: the tails play no part.  Two parsed trees that are the same once
    their tails are removed give the same run of the loop over the nodes; a
    parser that drops every tail gives the same run of the whole extractor;
    and every chunk written for a tree is the trimmed [.text] of one of its
    nodes followed by a line feed. *)
Theorem tail_text_not_written :
  (forall (r1 r2 : Element) (t : trace),
      erase_tails r1 = erase_tails r2 ->
      for_each (iter r1) elem_body t = for_each (iter r2) elem_body t)
  /\ (forall (w : World) (path : Py.str) (t : trace),
        read_xlsx (erase_tails_world w) path t = read_xlsx w path t)
  /\ (forall (root : Element) (chunk : Py.str),
        In chunk (written (fst (for_each (iter root) elem_body []))) ->
        exists elem s,
          In elem (iter root) /\ elem_text elem = Some s
          /\ truthy (strip s) = true /\ chunk = strip s ++ [LF]).
Proof.
  split; [|split].
  - intros r1 r2 t H. rewrite !iter_run.
    rewrite <- (node_lines_erase_tails r1), <- (node_lines_erase_tails r2).
    now rewrite H.
  - intros w path t. rewrite !read_xlsx_run. cbn [zipfile_ZipFile erase_tails_world].
    destruct (zipfile_ZipFile w path) as [e|z]; [reflexivity|].
    do 4 f_equal. apply flat_map_ext. intros name.
    apply entry_events_erase_tails.
  - intros root chunk. rewrite iter_run. cbn [fst app].
    rewrite written_map_Write. unfold node_lines. intros H.
    apply in_flat_map in H as [elem [Helem H]].
    destruct (elem_text elem) as [s|] eqn:Etext; [|destruct H].
    destruct (truthy (strip s)) eqn:Es; [|destruct H].
    destruct H as [<-|[]]. now exists elem, s.
Qed.

Lemma tail_text_not_written_witness :
  erase_tails Sample.good_root =
  erase_tails
    (mkElement (lit "si") None (Some (lit "x"))
       [mkElement (lit "t") (Some (lit "Revenue")) None []])
  /\ for_each (iter Sample.good_root) elem_body []
     = ([Write (lit "Revenue" ++ [LF])], inr tt).
Proof.
  split; [reflexivity|].
  exact (proj1 tail_text_not_written Sample.good_root
           (mkElement (lit "si") None (Some (lit "x"))
              [mkElement (lit "t") (Some (lit "Revenue")) None []])
           [] eq_refl).
Defined.

(** ** The driver *)

Section Driver.

Lemma read_xlsx_returns (w : World) (path : Py.str) (t : trace) :
  snd (read_xlsx w path t) = inr tt.
Proof. now rewrite read_xlsx_run. Qed.

Lemma read_docx_result (w : World) (path : Py.str) (t : trace) :
  snd (read_docx w path t) =
  match docx_Document w path with
  | inl e => inl e
  | inr _ => inr tt
  end.
Proof.
  rewrite read_docx_run. now destruct (docx_Document w path).
Qed.

Lemma main_status (w : World) (old : option Py.str) :
  snd (main w old) =
  match docx_Document w docx_path with
  | inl _ => 1
  | inr _ => 0
  end.
Proof.
  rewrite main_run, main_block_run.
  now destruct (docx_Document w docx_path).
Qed.

Lemma entry_events_same (w1 w2 : World) (z1 z2 : ZipFile) (name : Py.str) :
  read z1 name = read z2 name ->
  (forall data, ET_fromstring w1 data = ET_fromstring w2 data) ->
  entry_events w1 z1 name = entry_events w2 z2 name.
Proof.
  intros Hr Hp. unfold entry_events. rewrite Hr.
  destruct (endswith name (lit ".xml")); [|reflexivity].
  destruct (read z2 name) as [e|data]; [reflexivity|].
  now rewrite Hp.
Qed.

End Driver.

(** C7, as the code has it: the two extractors treat failure differently.
    An exception of [docx.Document] leaves [read_docx] as it was raised; in a
    run whose output file opened, the spreadsheet extractor is then not run
    and the status is 1.  [read_xlsx] never raises, whatever the archive
    does, so such a run ends with status 0 whenever the document opens.  When
    the output file cannot be opened the status is 1 as well, with no
    extractor called and the file left as it was.  The status is not 0
    exactly when the output file did not open or [read_docx] raised. *)
Theorem exit_status_asymmetric :
  (forall (w : World) (path : Py.str) (e : exn) (t : trace),
      docx_Document w path = inl e -> snd (read_docx w path t) = inl e)
  /\ (forall (w : World) (path : Py.str) (t : trace),
        snd (read_xlsx w path t) = inr tt)
  /\ (forall (w : World) (old : option Py.str) (e : exn),
        docx_Document w docx_path = inl e ->
        snd (run_script w (inr tt) old) = 1
        /\ ~ In (ZipOpen xlsx_path) (fst (main_block w [])))
  /\ (forall (w : World) (old : option Py.str) (doc : Document),
        docx_Document w docx_path = inr doc ->
        snd (run_script w (inr tt) old) = 0)
  /\ (forall (w : World) (old : option Py.str) (e : exn),
        run_script w (inl e) old = (old, 1))
  /\ (forall (w : World) (opened : result unit) (old : option Py.str),
        snd (run_script w opened old) <> 0 <->
        (exists e, opened = inl e)
        \/ (opened = inr tt
            /\ exists e, snd (read_docx w docx_path []) = inl e)).
Proof.
  split; [|split; [|split; [|split; [|split]]]].
  - intros w path e t H. now rewrite read_docx_result, H.
  - apply read_xlsx_returns.
  - intros w old e H. cbn [run_script snd]. split; [now rewrite main_status, H|].
    rewrite main_block_run, H. cbn [fst].
    intros [H'|[H'|[]]]; discriminate.
  - intros w old doc H. cbn [run_script snd]. now rewrite main_status, H.
  - reflexivity.
  - intros w opened old. destruct opened as [e|[]]; cbn [run_script snd].
    + split; [intros _; left; now exists e | intros _; discriminate].
    + rewrite main_status, read_docx_result.
      destruct (docx_Document w docx_path) as [e|doc]; split.
      * intros _. right. split; [reflexivity | now exists e].
      * intros _. discriminate.
      * intros H. now contradiction H.
      * intros [[e H]|[_ [e H]]]; discriminate.
Qed.

Lemma exit_status_asymmetric_witness :
  (docx_Document Sample.world_no_docx docx_path
     = inl (Exn (lit "Package not found"))
   /\ snd (read_docx Sample.world_no_docx docx_path [])
      = inl (Exn (lit "Package not found"))
   /\ snd (run_script Sample.world_no_docx (inr tt) None) = 1)
  /\ (docx_Document Sample.world_bad_zip docx_path = inr Sample.doc
      /\ snd (run_script Sample.world_bad_zip (inr tt) None) = 0).
Proof.
  destruct exit_status_asymmetric as [Hraise [_ [Hfatal [Hok _]]]].
  split.
  - split; [reflexivity|]. split.
    + exact (Hraise Sample.world_no_docx docx_path
               (Exn (lit "Package not found")) [] eq_refl).
    + exact (proj1 (Hfatal Sample.world_no_docx None
                      (Exn (lit "Package not found")) eq_refl)).
  - split; [reflexivity|].
    exact (Hok Sample.world_bad_zip None Sample.doc eq_refl).
Defined.

(** C7 as stated fails: when [open] of the output file raises, the status
    is 1 although the word-document extractor was not called, and would not
    have raised (the document is there); the earlier output file is left
    untouched. *)
Lemma exit_status_counterexample :
  let opened : result unit := inl (Exn (lit "No such file or directory")) in
  snd (run_script Sample.world_ok opened (Some (lit "old text"))) = 1
  /\ fst (run_script Sample.world_ok opened (Some (lit "old text")))
     = Some (lit "old text")
  /\ snd (read_docx Sample.world_ok docx_path []) = inr tt
  /\ ~ (forall (w : World) (o : result unit) (old : option Py.str),
          snd (run_script w o old) <> 0 ->
          exists e, snd (read_docx w docx_path []) = inl e).
Proof.
  cbv zeta. split; [reflexivity|]. split; [reflexivity|].
  split; [reflexivity|].
  intros H.
  destruct (H Sample.world_ok (inl (Exn (lit "No such file or directory")))
              None) as [e He]; [discriminate|].
  discriminate He.
Qed.

(** C8: the output file and the status are a function of the input files
    alone: two runs in worlds that hold the same two input files (archive
    names in the same order) give the same output text and the same status,
    whatever the output file held before; in particular a second run over the
    output of the first rewrites the same file. *)
Theorem main_deterministic :
  (forall (w1 w2 : World) (old1 old2 : option Py.str),
      same_inputs w1 w2 -> main w1 old1 = main w2 old2)
  /\ (forall (w : World) (old : option Py.str),
        main w (Some (fst (main w old))) = main w old).
Proof.
  split.
  - intros w1 w2 old1 old2 [Hdoc [Hzip Hparse]].
    rewrite !main_run, !main_block_run, Hdoc.
    destruct (docx_Document w2 docx_path) as [e|doc]; [reflexivity|].
    destruct (zipfile_ZipFile w1 xlsx_path) as [e1|z1],
             (zipfile_ZipFile w2 xlsx_path) as [e2|z2]; try contradiction.
    + now subst e2.
    + destruct Hzip as [Hnames Hread]. rewrite <- Hnames.
      rewrite (flat_map_ext_in (entry_events w1 z1) (entry_events w2 z2));
        [reflexivity|].
      intros name Hin. apply entry_events_same; [now apply Hread | exact Hparse].
  - intros w old. now rewrite !main_run.
Qed.

Lemma main_deterministic_witness :
  same_inputs Sample.world_ok Sample.world_ok'
  /\ main Sample.world_ok None = main Sample.world_ok' (Some (lit "old text")).
Proof.
  assert (H : same_inputs Sample.world_ok Sample.world_ok').
  { split; [reflexivity|]. split; [|reflexivity].
    split; reflexivity. }
  split; [exact H|].
  exact (proj1 main_deterministic Sample.world_ok Sample.world_ok'
           None (Some (lit "old text")) H).
Defined.

(** C10: the header of the word document is written before the document is
    opened: the first two events of [read_docx] are the write of the header
    and the open, in that order, whatever the open answers; and when the open
    fails, the run ends with status 1 and an output file that holds the
    header line and nothing else. *)
Theorem docx_header_before_open :
  (forall (w : World) (path : Py.str) (t : trace),
      exists rest,
        fst (read_docx w path t) =
        t ++ Write (docx_header path) :: DocxOpen path :: rest)
  /\ (forall (w : World) (old : option Py.str) (e : exn),
        docx_Document w docx_path = inl e ->
        main_block w [] =
          ([Write (docx_header docx_path); DocxOpen docx_path], inl e)
        /\ main w old =
           (lit "--- DOCX: " ++ docx_path ++ lit " ---" ++ [LF], 1)).
Proof.
  split.
  - intros w path t. rewrite read_docx_run.
    destruct (docx_Document w path) as [e|doc]; eexists; reflexivity.
  - intros w old e H. rewrite main_run, main_block_run, H. cbn [fst snd].
    split; [reflexivity|].
    unfold file_text. cbn [written List.concat exit_status].
    now rewrite app_nil_r.
Qed.

Lemma docx_header_before_open_witness :
  docx_Document Sample.world_no_docx docx_path
    = inl (Exn (lit "Package not found"))
  /\ main Sample.world_no_docx (Some (lit "old text"))
     = (docx_header docx_path, 1).
Proof.
  split; [reflexivity|].
  exact (proj2 (proj2 docx_header_before_open Sample.world_no_docx
                  (Some (lit "old text")) (Exn (lit "Package not found"))
                  eq_refl)).
Defined.

(** ** More about trimming and suffixes *)

Section Trimming.

Lemma lstrip_split (s : Py.str) :
  exists pre, s = pre ++ lstrip s /\ forallb isspace pre = true.
Proof.
  induction s as [|c s [pre [Hs Hpre]]]; [now exists []|].
  simpl. destruct (isspace c) eqn:Hc.
  - exists (c :: pre). simpl. rewrite Hc, Hpre. split; [now f_equal | reflexivity].
  - now exists [].
Qed.

Lemma rstrip_split (s : Py.str) :
  exists post, s = rstrip s ++ post /\ forallb isspace post = true.
Proof.
  unfold rstrip. destruct (lstrip_split (rev s)) as [pre [Hs Hpre]].
  exists (rev pre). split; [|now rewrite forallb_rev].
  rewrite <- rev_app_distr, <- Hs. now rewrite rev_involutive.
Qed.

(** A string is its trimmed form between two runs of white space. *)
Lemma strip_split (s : Py.str) :
  exists pre post,
    s = pre ++ strip s ++ post
    /\ forallb isspace pre = true /\ forallb isspace post = true.
Proof.
  destruct (lstrip_split s) as [pre [Hs Hpre]].
  destruct (rstrip_split (lstrip s)) as [post [Hu Hpost]].
  exists pre, post. unfold strip. now rewrite <- Hu.
Qed.

Lemma strip_first (s : Py.str) (c : Py.char) (r : Py.str) :
  strip s = c :: r -> isspace c = false.
Proof.
  intros H. destruct (rstrip_split (lstrip s)) as [post [Hu _]].
  unfold strip in H. rewrite H in Hu. simpl in Hu.
  exact (lstrip_head s c _ Hu).
Qed.

Lemma strip_last (s r : Py.str) (c : Py.char) :
  strip s = r ++ [c] -> isspace c = false.
Proof.
  unfold strip, rstrip. intros H.
  apply (f_equal (@rev Py.char)) in H.
  rewrite rev_involutive, rev_app_distr in H. simpl in H.
  exact (lstrip_head _ c _ H).
Qed.

Lemma lstrip_fixed (s : Py.str) :
  (forall c r, s = c :: r -> isspace c = false) -> lstrip s = s.
Proof.
  destruct s as [|c r]; [reflexivity|].
  intros H. simpl. now rewrite (H c r eq_refl).
Qed.

(** Trimming twice is trimming once. *)
Lemma strip_idempotent (s : Py.str) : strip (strip s) = strip s.
Proof.
  remember (strip s) as u eqn:Hu. symmetry in Hu.
  unfold strip at 1. rewrite (lstrip_fixed u).
  - unfold rstrip. rewrite (lstrip_fixed (rev u)); [apply rev_involutive|].
    intros c r Hr. apply (f_equal (@rev Py.char)) in Hr.
    rewrite rev_involutive in Hr. simpl in Hr.
    apply (strip_last s (rev r) c). now rewrite Hu.
  - intros c r Hr. apply (strip_first s c r). now rewrite Hu.
Qed.

Lemma startswith_iff (s p : Py.str) :
  startswith s p = true <-> exists r, s = p ++ r.
Proof.
  revert s. induction p as [|d p IH]; intros s.
  - destruct s; simpl; split; intros _; eauto.
  - destruct s as [|c s]; simpl.
    + split; [discriminate | intros [r H]; discriminate].
    + rewrite andb_true_iff, N.eqb_eq, IH. split.
      * intros [-> [r ->]]. now exists r.
      * intros [r H]. injection H as -> ->. split; [reflexivity | now exists r].
Qed.

(** [endswith] holds exactly of the strings made of something and then the
    suffix. *)
Lemma endswith_iff (s suffix : Py.str) :
  endswith s suffix = true <-> exists p, s = p ++ suffix.
Proof.
  unfold endswith. rewrite startswith_iff. split.
  - intros [r H]. exists (rev r).
    apply (f_equal (@rev Py.char)) in H.
    now rewrite rev_involutive, rev_app_distr, rev_involutive in H.
  - intros [p ->]. exists (rev p). apply rev_app_distr.
Qed.

Lemma truthy_cell_entry (cell : Cell) :
  truthy (cell_entry cell) = negb (forallb isspace (cell_text cell)).
Proof.
  destruct (forallb isspace (cell_text cell)) eqn:B.
  - apply cell_entry_blank in B. now rewrite B.
  - destruct (truthy (cell_entry cell)) eqn:T; [reflexivity|].
    apply truthy_false_iff, cell_entry_blank in T. congruence.
Qed.

Lemma any_row_nonblank (row : Row) :
  existsb truthy (List.map cell_entry (cells row)) = row_nonblank row.
Proof.
  unfold row_nonblank. induction (cells row) as [|c l IH]; simpl;
    [reflexivity | now rewrite IH, truthy_cell_entry].
Qed.

End Trimming.

(** ** What a whole document and a whole archive give *)

Section Whole.

Lemma paragraphs_written (ps : list Paragraph) :
  written (flat_map paragraph_events ps) =
  List.map (fun p => p_text p ++ [LF]) (filter paragraph_nonblank ps).
Proof.
  induction ps as [|p ps IH]; [reflexivity|].
  cbn [flat_map filter]. rewrite written_app, IH.
  unfold paragraph_events, paragraph_nonblank.
  destruct (truthy (strip (p_text p))) eqn:E.
  - destruct (forallb isspace (p_text p)) eqn:B; [|reflexivity].
    apply truthy_strip_false in B. congruence.
  - apply truthy_strip_false in E. now rewrite E.
Qed.

Lemma rows_written (rs : list Row) :
  written (flat_map row_events rs) =
  List.map (fun row => row_text row ++ [LF]) (filter row_nonblank rs).
Proof.
  induction rs as [|row rs IH]; [reflexivity|].
  cbn [flat_map filter]. rewrite written_app, IH.
  unfold row_events. cbv zeta. rewrite any_row_nonblank.
  now destruct (row_nonblank row).
Qed.

Lemma tables_written (ts : list Table) :
  written (flat_map (fun table => flat_map row_events (rows table)) ts) =
  List.map (fun row => row_text row ++ [LF])
           (filter row_nonblank (flat_map rows ts)).
Proof.
  induction ts as [|table ts IH]; [reflexivity|].
  cbn [flat_map]. rewrite written_app, IH, rows_written.
  now rewrite filter_app, map_app.
Qed.

Lemma document_written (doc : Document) :
  written (document_events doc) =
  List.map (fun p => p_text p ++ [LF])
           (filter paragraph_nonblank (paragraphs doc))
  ++ List.map (fun row => row_text row ++ [LF])
              (filter row_nonblank (flat_map rows (tables doc))).
Proof.
  unfold document_events.
  now rewrite written_app, paragraphs_written, tables_written.
Qed.

Lemma row_text_LF_free (row : Row) : ~ In LF (row_text row).
Proof.
  unfold row_text. apply join_free.
  - vm_compute. intros H.
    repeat (destruct H as [H|H]; [discriminate H|]). exact H.
  - intros s Hs. apply in_map_iff in Hs as [cell [<- _]].
    apply cell_entry_LF_free.
Qed.

(** Reading back a line: up to the first line feed. *)
Lemma lines_from_line (body rest cur : Py.str) :
  ~ In LF body ->
  lines_from cur (body ++ LF :: rest) = (rev cur ++ body) :: lines_from [] rest.
Proof.
  revert cur. induction body as [|c body IH]; intros cur Hfree.
  - simpl. now rewrite app_nil_r.
  - cbn [app lines_from].
    destruct (c =? LF) eqn:E.
    + apply N.eqb_eq in E. subst c. exfalso. apply Hfree. now left.
    + rewrite IH; [|intros H; apply Hfree; now right].
      simpl. now rewrite <- app_assoc.
Qed.

(** Lines written one after the other are read back one by one. *)
Lemma file_lines_chunks (bodies : list Py.str) :
  Forall (fun body => ~ In LF body) bodies ->
  file_lines (List.concat (List.map (fun body => body ++ [LF]) bodies))
  = bodies.
Proof.
  unfold file_lines. induction 1 as [|body bodies Hfree _ IH]; [reflexivity|].
  cbn [List.map List.concat]. rewrite <- app_assoc. cbn [app].
  rewrite (lines_from_line body _ [] Hfree). now rewrite IH.
Qed.

Lemma ends_LF_map {A : Type} (f : A -> Py.str) (l : list A) :
  Forall ends_LF (List.map (fun x => f x ++ [LF]) l).
Proof.
  apply Forall_forall. intros chunk H.
  apply in_map_iff in H as [x [<- _]]. now exists (f x).
Qed.

Lemma document_ends_LF (doc : Document) :
  Forall ends_LF (written (document_events doc)).
Proof.
  rewrite document_written. apply Forall_app. split; apply ends_LF_map.
Qed.

Lemma node_lines_ends_LF (root : Element) : Forall ends_LF (node_lines root).
Proof.
  apply Forall_forall. intros chunk H. unfold node_lines in H.
  apply in_flat_map in H as [elem [_ H]].
  destruct (elem_text elem) as [s|]; [|destruct H].
  destruct (truthy (strip s)); [|destruct H].
  destruct H as [<-|[]]. now exists (strip s).
Qed.

Lemma entry_written (w : World) (z : ZipFile) (name : Py.str) :
  written (entry_events w z name) =
  if endswith name (lit ".xml") then
    match read z name with
    | inl _ => []
    | inr data =>
        match ET_fromstring w data with
        | inl _ => []
        | inr root => node_lines root
        end
    end
  else [].
Proof.
  unfold entry_events. destruct (endswith name (lit ".xml")); [|reflexivity].
  destruct (read z name) as [e|data]; [reflexivity|].
  destruct (ET_fromstring w data) as [e|root]; [reflexivity|].
  apply written_map_Write.
Qed.

Lemma entries_ends_LF (w : World) (z : ZipFile) (names : list Py.str) :
  Forall ends_LF (written (flat_map (entry_events w z) names)).
Proof.
  rewrite written_flat_map. apply Forall_flat_map, Forall_forall.
  intros name _. rewrite entry_written.
  destruct (endswith name (lit ".xml")); [|constructor].
  destruct (read z name) as [e|data]; [constructor|].
  destruct (ET_fromstring w data) as [e|root]; [constructor|].
  apply node_lines_ends_LF.
Qed.

Lemma concat_ends_LF (l : list Py.str) :
  l <> [] -> Forall ends_LF l -> ends_LF (List.concat l).
Proof.
  induction l as [|chunk l IH]; [congruence|].
  intros _ H. inversion H as [|? ? [body ->] Hl]; subst.
  destruct l as [|chunk' l'].
  - exists body. apply app_nil_r.
  - destruct (IH ltac:(discriminate) Hl) as [body' Hb].
    exists ((body ++ [LF]) ++ body'). cbn [List.concat] in *.
    rewrite Hb. now rewrite <- !app_assoc.
Qed.

Lemma docx_header_ends_LF (path : Py.str) : ends_LF (docx_header path).
Proof.
  exists (lit "--- DOCX: " ++ path ++ lit " ---").
  unfold docx_header. now rewrite <- !app_assoc.
Qed.

Lemma xlsx_header_ends_LF (path : Py.str) : ends_LF (xlsx_header path).
Proof.
  exists ([LF] ++ lit "--- XLSX: " ++ path ++ lit " ---").
  unfold xlsx_header. now rewrite <- !app_assoc.
Qed.

Lemma xlsx_failure_ends_LF (e : exn) : ends_LF (xlsx_failure e).
Proof.
  exists (lit "Failed to read xlsx: " ++ exn_str e).
  unfold xlsx_failure. now rewrite <- !app_assoc.
Qed.

End Whole.

(** ** Further properties of the spreadsheet extractor *)

(** X1: an entry named [*.xml] whose [z.read] raises is skipped like one that
    does not parse: the read is the only event of that round (no parse, no
    write), the loop goes on, and the writes of the whole call are the
    header and what the entries before and after it give. *)
Theorem xlsx_unreadable_entry_skipped :
  forall (w : World) (path : Py.str) (z : ZipFile)
         (before : list Py.str) (bad : Py.str) (after : list Py.str)
         (e : exn) (t : trace),
    zipfile_ZipFile w path = inr z ->
    namelist z = before ++ bad :: after ->
    endswith bad (lit ".xml") = true ->
    read z bad = inl e ->
    entry_body w z bad t = (t ++ [ZipRead bad], inr tt)
    /\ read_xlsx w path t =
       (t ++ Write (xlsx_header path) :: ZipOpen path
             :: flat_map (entry_events w z) before
             ++ ZipRead bad :: flat_map (entry_events w z) after,
        inr tt)
    /\ written (fst (read_xlsx w path t)) =
       written t ++ [xlsx_header path]
       ++ written (flat_map (entry_events w z) before)
       ++ written (flat_map (entry_events w z) after).
Proof.
  intros w path z before bad after e t Hzip Hnames Hx Hr.
  assert (Hbad : entry_events w z bad = [ZipRead bad]).
  { unfold entry_events. now rewrite Hx, Hr. }
  split; [now rewrite entry_body_run, Hbad|].
  rewrite read_xlsx_run, Hzip, Hnames, flat_map_app. cbn [flat_map fst].
  rewrite Hbad. split; [reflexivity|].
  rewrite written_app. cbn [written app]. now rewrite written_app.
Qed.

Lemma xlsx_unreadable_entry_skipped_witness :
  zipfile_ZipFile Sample.world_locked xlsx_path = inr Sample.archive_locked
  /\ endswith (lit "locked.xml") (lit ".xml") = true
  /\ read Sample.archive_locked (lit "locked.xml")
     = inl (Exn (lit "File is encrypted"))
  /\ read_xlsx Sample.world_locked xlsx_path [] =
     ([Write (xlsx_header xlsx_path); ZipOpen xlsx_path;
       ZipRead (lit "locked.xml");
       ZipRead (lit "good.xml"); XmlParse Sample.good_data;
       Write (lit "Revenue" ++ [LF])],
      inr tt).
Proof.
  repeat (split; [reflexivity|]).
  exact (proj1 (proj2
    (xlsx_unreadable_entry_skipped Sample.world_locked xlsx_path
       Sample.archive_locked [] (lit "locked.xml") [lit "good.xml"]
       (Exn (lit "File is encrypted")) []
       eq_refl eq_refl eq_refl eq_refl))).
Defined.

(** X2: on an archive that opens, nothing is written but the header and node
    texts: every later chunk is the trimmed direct text, with a line feed, of
    a node of a tree parsed from the data read for a listed name ending in
    [.xml]. *)
Theorem xlsx_chunk_provenance :
  forall (w : World) (path : Py.str) (z : ZipFile),
    zipfile_ZipFile w path = inr z ->
    exists rest,
      written (fst (read_xlsx w path [])) = xlsx_header path :: rest
      /\ forall chunk,
           In chunk rest ->
           exists name data root elem s,
             In name (namelist z)
             /\ endswith name (lit ".xml") = true
             /\ read z name = inr data
             /\ ET_fromstring w data = inr root
             /\ In elem (iter root)
             /\ elem_text elem = Some s
             /\ chunk = strip s ++ [LF].
Proof.
  intros w path z Hzip.
  exists (written (flat_map (entry_events w z) (namelist z))).
  split; [now rewrite read_xlsx_run, Hzip|].
  intros chunk H. rewrite written_flat_map in H.
  apply in_flat_map in H as [name [Hname H]].
  rewrite entry_written in H.
  destruct (endswith name (lit ".xml")) eqn:Hx; [|destruct H].
  destruct (read z name) as [e|data] eqn:Hr; [destruct H|].
  destruct (ET_fromstring w data) as [e|root] eqn:Hp; [destruct H|].
  unfold node_lines in H. apply in_flat_map in H as [elem [Helem H]].
  destruct (elem_text elem) as [s|] eqn:Ht; [|destruct H].
  destruct (truthy (strip s)); [|destruct H].
  destruct H as [<-|[]].
  exists name, data, root, elem, s. repeat split; assumption.
Qed.

Lemma xlsx_chunk_provenance_witness :
  zipfile_ZipFile Sample.world_ok xlsx_path = inr Sample.archive
  /\ exists rest,
       written (fst (read_xlsx Sample.world_ok xlsx_path []))
       = xlsx_header xlsx_path :: rest.
Proof.
  split; [reflexivity|].
  destruct (xlsx_chunk_provenance Sample.world_ok xlsx_path Sample.archive
              eq_refl) as [rest [H _]].
  now exists rest.
Defined.

(** X3: every chunk the loop over the nodes writes is a line feed after a
    body that is not empty, that trimming leaves unchanged, and whose first
    and last characters are not white space. *)
Theorem xlsx_lines_trimmed :
  forall (root : Element) (chunk : Py.str),
    In chunk (written (fst (for_each (iter root) elem_body []))) ->
    exists body,
      chunk = body ++ [LF]
      /\ body <> []
      /\ strip body = body
      /\ (forall c r, body = c :: r -> isspace c = false)
      /\ (forall r c, body = r ++ [c] -> isspace c = false).
Proof.
  intros root chunk. rewrite iter_run. cbn [fst app].
  rewrite written_map_Write. unfold node_lines. intros H.
  apply in_flat_map in H as [elem [_ H]].
  destruct (elem_text elem) as [s|]; [|destruct H].
  destruct (truthy (strip s)) eqn:E; [|destruct H].
  destruct H as [<-|[]]. exists (strip s).
  split; [reflexivity|]. split; [|split; [|split]].
  - intros H. now rewrite H in E.
  - apply strip_idempotent.
  - intros c r. apply strip_first.
  - intros r c. apply strip_last.
Qed.

Lemma xlsx_lines_trimmed_witness :
  In (lit "Revenue" ++ [LF])
     (written (fst (for_each (iter Sample.good_root) elem_body [])))
  /\ exists body,
       lit "Revenue" ++ [LF] = body ++ [LF] /\ strip body = body.
Proof.
  assert (H : In (lit "Revenue" ++ [LF])
                 (written (fst (for_each (iter Sample.good_root) elem_body []))))
    by (now left).
  split; [exact H|].
  destruct (xlsx_lines_trimmed Sample.good_root _ H) as [body [Hb [_ [Hs _]]]].
  now exists body.
Defined.

(** X4: an archive that opens but lists no name ending in [.xml] (an empty
    archive among them) gives the header and nothing more: no entry is read,
    nothing is parsed, and the call returns. *)
Theorem xlsx_without_xml_entries :
  forall (w : World) (path : Py.str) (z : ZipFile) (t : trace),
    zipfile_ZipFile w path = inr z ->
    (forall name, In name (namelist z) ->
                  endswith name (lit ".xml") = false) ->
    read_xlsx w path t =
      (t ++ [Write (xlsx_header path); ZipOpen path], inr tt).
Proof.
  intros w path z t Hzip Hnone. rewrite read_xlsx_run, Hzip.
  replace (flat_map (entry_events w z) (namelist z)) with (@nil event);
    [reflexivity|].
  symmetry. induction (namelist z) as [|name names IH]; [reflexivity|].
  cbn [flat_map]. rewrite IH by (intros n Hn; apply Hnone; now right).
  unfold entry_events. now rewrite (Hnone name (or_introl eq_refl)).
Qed.

Lemma xlsx_without_xml_entries_witness :
  zipfile_ZipFile Sample.world_media xlsx_path = inr Sample.archive_media
  /\ forallb (fun name => negb (endswith name (lit ".xml")))
             (namelist Sample.archive_media) = true
  /\ read_xlsx Sample.world_media xlsx_path [] =
     ([Write (xlsx_header xlsx_path); ZipOpen xlsx_path], inr tt).
Proof.
  split; [reflexivity|]. split; [reflexivity|].
  apply (xlsx_without_xml_entries Sample.world_media xlsx_path
           Sample.archive_media [] eq_refl).
  intros name H. simpl in H.
  repeat (destruct H as [H|H]; [subst name; reflexivity|]).
  destruct H.
Defined.

(** X5: the round of the loop for a name reads the entry exactly when the
    name is some string followed by the four characters [.xml], in lower
    case; the name [.xml] itself counts. *)
Theorem entry_read_iff_suffix :
  forall (w : World) (z : ZipFile) (name : Py.str),
    In (ZipRead name) (fst (entry_body w z name [])) <->
    exists stem, name = stem ++ lit ".xml".
Proof.
  intros w z name. rewrite entry_body_run. cbn [fst app].
  rewrite in_entry_read, <- endswith_iff. tauto.
Qed.

Lemma entry_read_iff_suffix_witness :
  In (ZipRead (lit "xl/sharedStrings.xml"))
     (fst (entry_body Sample.world_ok Sample.archive
             (lit "xl/sharedStrings.xml") []))
  /\ ~ In (ZipRead (lit "sheet.XML"))
          (fst (entry_body Sample.world_ok Sample.archive (lit "sheet.XML") [])).
Proof.
  split.
  - apply (proj2 (entry_read_iff_suffix Sample.world_ok Sample.archive
                    (lit "xl/sharedStrings.xml"))).
    now exists (lit "xl/sharedStrings").
  - vm_compute. tauto.
Defined.

(** ** Further properties of the word-document extractor and the driver *)

(** X6: when the document opens, what the extractor writes is the header,
    then one chunk for each paragraph with a character that is not white
    space, in document order, then one chunk for each table row with such a
    character in some cell, table after table and row after row; every
    paragraph chunk comes before every row chunk, wherever the tables stand
    in the document. *)
Theorem read_docx_written :
  forall (w : World) (path : Py.str) (doc : Document) (t : trace),
    docx_Document w path = inr doc ->
    written (fst (read_docx w path t)) =
    written t
    ++ docx_header path
       :: List.map (fun p => p_text p ++ [LF])
                   (filter paragraph_nonblank (paragraphs doc))
       ++ List.map (fun row => row_text row ++ [LF])
                   (filter row_nonblank (flat_map rows (tables doc))).
Proof.
  intros w path doc t Hdoc. rewrite read_docx_run, Hdoc. cbn [fst].
  rewrite written_app. cbn [written]. now rewrite document_written.
Qed.

Lemma read_docx_written_witness :
  docx_Document Sample.world_ok docx_path = inr Sample.doc
  /\ written (fst (read_docx Sample.world_ok docx_path [Write (lit "x")])) =
     [lit "x"; docx_header docx_path; lit " hi" ++ [LF]; lit "bye" ++ [LF];
      lit "a |  | b c" ++ [LF]].
Proof.
  split; [reflexivity|].
  exact (read_docx_written Sample.world_ok docx_path Sample.doc
           [Write (lit "x")] eq_refl).
Defined.

(** X7: the chunk written for a paragraph is its trimmed text between the
    white space that trimming would have removed, and a line feed: the
    written line and the trimmed text differ by leading and trailing white
    space only. *)
Theorem paragraph_line_around_trimmed :
  forall (p : Paragraph) (t : trace),
    paragraph_nonblank p = true ->
    exists pre post,
      paragraph_body p t =
        (t ++ [Write (pre ++ strip (p_text p) ++ post ++ [LF])], inr tt)
      /\ forallb isspace pre = true
      /\ forallb isspace post = true
      /\ strip (p_text p) <> [].
Proof.
  intros p t Hp. unfold paragraph_nonblank in Hp.
  apply negb_true_iff in Hp.
  destruct (strip_split (p_text p)) as [pre [post [Hs [Hpre Hpost]]]].
  exists pre, post.
  assert (Hne : strip (p_text p) <> []).
  { intros H. apply strip_nil_iff in H. congruence. }
  split; [|now repeat split].
  rewrite paragraph_body_run. unfold paragraph_events.
  destruct (truthy (strip (p_text p))) eqn:E.
  - do 4 f_equal. rewrite Hs at 1. now rewrite <- !app_assoc.
  - apply truthy_false_iff in E. contradiction.
Qed.

Lemma paragraph_line_around_trimmed_witness :
  paragraph_nonblank {| p_text := lit "  hi " |} = true
  /\ exists pre post,
       paragraph_body {| p_text := lit "  hi " |} [] =
         ([Write (pre ++ lit "hi" ++ post ++ [LF])], inr tt)
       /\ forallb isspace pre = true /\ forallb isspace post = true.
Proof.
  split; [reflexivity|].
  destruct (paragraph_line_around_trimmed {| p_text := lit "  hi " |} []
              eq_refl) as [pre [post [Hrun [Hpre [Hpost _]]]]].
  exists pre, post. repeat split; assumption.
Defined.

(** X8: when neither the path nor a paragraph holds a line feed, the output
    of the extractor read line by line is the header line, the text of each
    non-blank paragraph and the text of each non-blank row, one line each:
    a table row never spans lines, whatever its cells hold. *)
Theorem read_docx_line_by_line :
  forall (w : World) (path : Py.str) (doc : Document),
    docx_Document w path = inr doc ->
    ~ In LF path ->
    (forall p, In p (paragraphs doc) -> ~ In LF (p_text p)) ->
    file_lines (file_text (fst (read_docx w path []))) =
    (lit "--- DOCX: " ++ path ++ lit " ---")
    :: List.map p_text (filter paragraph_nonblank (paragraphs doc))
    ++ List.map row_text (filter row_nonblank (flat_map rows (tables doc))).
Proof.
  intros w path doc Hdoc Hpath Hpars.
  set (bodies :=
         (lit "--- DOCX: " ++ path ++ lit " ---")
         :: List.map p_text (filter paragraph_nonblank (paragraphs doc))
         ++ List.map row_text
              (filter row_nonblank (flat_map rows (tables doc)))).
  assert (Hw : written (fst (read_docx w path [])) =
               List.map (fun body => body ++ [LF]) bodies).
  { rewrite read_docx_run, Hdoc. cbn [fst app written].
    rewrite document_written. unfold bodies. cbn [List.map].
    rewrite map_app, !map_map. f_equal.
    unfold docx_header. now rewrite <- !app_assoc. }
  unfold file_text. rewrite Hw. apply file_lines_chunks.
  unfold bodies. constructor.
  - intros H. apply in_app_or in H as [H|H].
    + revert H. vm_compute. intros H.
      repeat (destruct H as [H|H]; [discriminate H|]). exact H.
    + apply in_app_or in H as [H|H]; [now apply Hpath|].
      revert H. vm_compute. intros H.
      repeat (destruct H as [H|H]; [discriminate H|]). exact H.
  - apply Forall_app. split; apply Forall_forall; intros body H;
      apply in_map_iff in H as [x [<- Hx]].
    + apply Hpars. now apply filter_In in Hx.
    + apply row_text_LF_free.
Qed.

Lemma read_docx_line_by_line_witness :
  docx_Document Sample.world_ok (lit "a.docx") = inr Sample.doc
  /\ file_lines (file_text (fst (read_docx Sample.world_ok (lit "a.docx") [])))
     = [lit "--- DOCX: a.docx ---"; lit " hi"; lit "bye"; lit "a |  | b c"].
Proof.
  split; [reflexivity|].
  apply (read_docx_line_by_line Sample.world_ok (lit "a.docx") Sample.doc
           eq_refl).
  - vm_compute. intros H.
    repeat (destruct H as [H|H]; [discriminate H|]). exact H.
  - intros p H. simpl in H.
    repeat (destruct H as [H|H];
            [subst p; vm_compute; intros H;
             repeat (destruct H as [H|H]; [discriminate H|]); exact H|]).
    destruct H.
Defined.

(** X9: every chunk a run of the driver writes ends in a line feed, on every
    path through the script (document missing, archive missing, all well),
    so the output file is never empty and always ends in a line feed. *)
Theorem output_complete_lines :
  forall (w : World) (old : option Py.str),
    Forall ends_LF (written (fst (main_block w [])))
    /\ ends_LF (fst (main w old)).
Proof.
  intros w old.
  assert (Hall : Forall ends_LF (written (fst (main_block w [])))).
  { rewrite main_block_run.
    destruct (docx_Document w docx_path) as [e|doc]; cbn [fst written].
    - constructor; [apply docx_header_ends_LF | constructor].
    - constructor; [apply docx_header_ends_LF|].
      rewrite written_app. apply Forall_app.
      split; [apply document_ends_LF|].
      cbn [written]. constructor; [apply xlsx_header_ends_LF|].
      destruct (zipfile_ZipFile w xlsx_path) as [e|z].
      + constructor; [apply xlsx_failure_ends_LF | constructor].
      + apply entries_ends_LF. }
  split; [exact Hall|].
  rewrite main_run. cbn [fst]. unfold file_text.
  apply concat_ends_LF; [|exact Hall].
  rewrite main_block_run.
  destruct (docx_Document w docx_path); cbn [fst app written]; discriminate.
Qed.

(** X10: when the document opens, the output file is what the word-document
    extractor writes on its own followed by what the spreadsheet extractor
    writes on its own; the first part ends in a line feed and the second
    starts with one, so an empty line stands before the spreadsheet
    header. *)
Theorem main_output_composition :
  forall (w : World) (old : option Py.str) (doc : Document),
    docx_Document w docx_path = inr doc ->
    fst (main w old) =
      file_text (fst (read_docx w docx_path []))
      ++ file_text (fst (read_xlsx w xlsx_path []))
    /\ ends_LF (file_text (fst (read_docx w docx_path [])))
    /\ exists rest,
         file_text (fst (read_xlsx w xlsx_path [])) =
         [LF] ++ lit "--- XLSX: " ++ xlsx_path ++ lit " ---" ++ [LF] ++ rest.
Proof.
  intros w old doc Hdoc. split; [|split].
  - rewrite main_run, main_block_run, read_docx_run, read_xlsx_run, Hdoc.
    cbn [fst]. rewrite !app_nil_l. apply file_text_app.
  - rewrite read_docx_run, Hdoc. cbn [fst app]. unfold file_text.
    apply concat_ends_LF; [cbn [written]; discriminate|].
    cbn [written]. constructor;
      [apply docx_header_ends_LF | apply document_ends_LF].
  - rewrite read_xlsx_run. cbn [fst app]. rewrite file_text_Write.
    eexists. unfold xlsx_header. rewrite <- !app_assoc. reflexivity.
Qed.

Lemma main_output_composition_witness :
  docx_Document Sample.world_ok docx_path = inr Sample.doc
  /\ fst (main Sample.world_ok None) =
     file_text (fst (read_docx Sample.world_ok docx_path []))
     ++ file_text (fst (read_xlsx Sample.world_ok xlsx_path [])).
Proof.
  split; [reflexivity|].
  exact (proj1 (main_output_composition Sample.world_ok None Sample.doc
                  eq_refl)).
Defined.

(** X11: both extractors only append: run after any earlier output, each
    leaves that output in place and adds exactly the events it produces on
    an empty trace, with the same result. *)
Theorem extractors_append_only :
  (forall (w : World) (path : Py.str) (t : trace),
      read_docx w path t =
      (t ++ fst (read_docx w path []), snd (read_docx w path [])))
  /\ (forall (w : World) (path : Py.str) (t : trace),
        read_xlsx w path t =
        (t ++ fst (read_xlsx w path []), snd (read_xlsx w path []))).
Proof.
  split; intros w path t.
  - rewrite !read_docx_run. now destruct (docx_Document w path).
  - now rewrite !read_xlsx_run.
Qed.
